(** * Connection registry of share/network/network.go and the gameserver
      Initialized handler (cmd/gameserver/packet/initialized.go).

    Shallow embedding: a [Network] value is the registry state
    (clients map, running user index); every method becomes a function
    from a state to the new state and the list of observable effects
    (lock operations, packet sends, log lines, session closes). *)

From Stdlib Require Import ZArith NArith String.
From stdpp Require Import base gmap list strings.

Open Scope N_scope.

Module Network.

(** uint16 arithmetic: [n.userIdx++] wraps modulo 2^16. *)
Definition UINT16 : N := 65536.
Definition wrap (x : N) : N := x mod UINT16.

(** Packet writer ([*Writer]): an opcode and the payload bytes. *)
Record Writer := mkWriter { opcode : N; payload : list Z }.

(** Character record of share/models/character: the fields the code reads. *)
Record Character := mkCharacter { Id : Z; Name : string }.

(** The gameserver's per-session [context]; [char] is the pointer
    guarded by the context mutex. *)
Record context := mkContext { char : option Character }.

(** [session.DataEx] is an [interface{}]; the type assertion
    [session.DataEx.( *context)] succeeds only on a [*context]. *)
Inductive DataExT :=
| DataExContext (c : context)
| DataExOther.

(** [session.Data]. *)
Record SessionData := mkSessionData {
  Verified : bool;
  LoggedIn : bool;
  AccountId : Z;
  CharacterList : list Character
}.

(** [network.Session]. [ptr] is the address of the [*Session] object
    (Go compares sessions by pointer); [socket_ip] is what [GetIp()]
    returns for the session's socket. *)
Record Session := mkSession {
  ptr : N;
  UserIdx : N;
  AuthKey : N;
  socket_ip : string;
  Connected : bool;
  Data : SessionData;
  DataEx : option DataExT
}.

Definition set_UserIdx (s : Session) (i : N) : Session :=
  mkSession (ptr s) i (AuthKey s) (socket_ip s) (Connected s) (Data s) (DataEx s).

Definition set_Data (s : Session) (d : SessionData) : Session :=
  mkSession (ptr s) (UserIdx s) (AuthKey s) (socket_ip s) (Connected s) d (DataEx s).

Definition set_DataEx (s : Session) (x : option DataExT) : Session :=
  mkSession (ptr s) (UserIdx s) (AuthKey s) (socket_ip s) (Connected s) (Data s) x.

(** [type Network struct { lock; clients map[uint16]*Session; userIdx uint16; ... }] *)
Record Network := mkNetwork {
  clients : gmap N Session;
  userIdx : N
}.

(** Observable effects: registry lock operations, [Session.Send],
    [Session.Close], log lines and RPC calls. *)
Inductive Effect :=
| RLockE | RUnlockE | LockE | UnlockE
| SendE (s : Session) (w : Writer)
| CloseE (s : Session)
| LogE (msg : string)
| RpcE (name : string).

(** State set up by [Init] before the accept loop starts. *)
Definition init : Network := mkNetwork ∅ 0.

(** ** The accept loop body ([Init], lines 45-92) *)

(** [for n.clients[n.userIdx] != nil { n.userIdx++ }].  The Go loop has
    no bound; [scan fuel] runs at most [fuel] iterations and returns
    [None] when the loop has not exited by then. *)
Fixpoint scan (fuel : nat) (m : gmap N Session) (i : N) : option N :=
  match fuel with
  | O => None
  | S f =>
      match m !! i with
      | Some _ => scan f m (wrap (i + 1))
      | None => Some i
      end
  end.

(** Outcome of one iteration of the accept loop. *)
Inductive AcceptResult :=
| Accepted (n' : Network) (s' : Session)
    (** the session is inserted under [s'.UserIdx] *)
| Dropped (n' : Network)
    (** "Can't find any available user indexes!", [session.Close()], [continue] *)
| Spinning.
    (** the search loop is still running *)

(** Lines 81-85: insert the session under [n.userIdx], store the index in
    the session, then [n.userIdx++]. *)
Definition register_at (n : Network) (s : Session) (idx : N) : AcceptResult :=
  let s' := set_UserIdx s idx in
  Accepted (mkNetwork (<[idx := s']> (clients n)) (wrap (idx + 1))) s'.

(** Lines 55-85 for the new [session] built from the accepted socket.
    The only goroutine inserting into [clients] is this loop; a
    concurrent [onClientDisconnect] between the checks and the insertion
    can only delete entries. *)
Definition accept (fuel : nat) (n : Network) (s : Session) : AcceptResult :=
  match clients n !! userIdx n with
  | None => register_at n s (userIdx n)
  | Some _ =>
      match scan fuel (clients n) (userIdx n) with
      | None => Spinning
      | Some idx =>
          match clients n !! idx with
          | Some _ => Dropped (mkNetwork (clients n) idx)
          | None => register_at (mkNetwork (clients n) idx) s idx
          end
      end
  end.

(** ** [onClientDisconnect] (lines 229-240).  The event payload is
    [Some s] when the [event.( *Session)] assertion succeeds. *)
Definition onClientDisconnect (n : Network) (ev : option Session) : Network :=
  match ev with
  | None => n
  | Some s => mkNetwork (delete (UserIdx s) (clients n)) (userIdx n)
  end.

(** ** [VerifyUser] (lines 146-158). *)
Definition verify_data (s : Session) (db_idx : Z) : Session :=
  set_Data s (mkSessionData true true db_idx (CharacterList (Data s))).

Definition VerifyUser (n : Network) (i k : N) (ip : string) (db_idx : Z)
  : Network * bool :=
  match clients n !! i with
  | Some s =>
      if (AuthKey s =? k) && String.eqb (socket_ip s) ip
      then (mkNetwork (<[i := verify_data s db_idx]> (clients n)) (userIdx n), true)
      else (n, false)
  | None => (n, false)
  end.

(** ** Reachable registry states: [Init] followed by any interleaving of
    accept-loop iterations, disconnect events and [VerifyUser] calls. *)
Inductive step : Network -> Network -> Prop :=
| step_accept fuel n s n' s' :
    accept fuel n s = Accepted n' s' -> step n n'
| step_drop fuel n s n' :
    accept fuel n s = Dropped n' -> step n n'
| step_disconnect n ev : step n (onClientDisconnect n ev)
| step_verify n i k ip db : step n (fst (VerifyUser n i k ip db)).

Definition reachable (n : Network) : Prop := rtc step init n.

(** ** Sending ([SendToUser], [SendToAll], [SendToAllExcept]). *)

(** [SendToUser] (lines 161-172). *)
Definition SendToUser (n : Network) (i : N) (w : Writer) : bool * list Effect :=
  match clients n !! i with
  | Some s =>
      if Connected s then (true, [RLockE; SendE s w; RUnlockE])
      else (false, [RLockE; RUnlockE])
  | None => (false, [RLockE; RUnlockE])
  end.

(** [for _, s := range n.clients]: Go visits the entries in an
    unspecified order; [l] is that order, a permutation of the map. *)
Definition go_range (m : gmap N Session) (l : list (N * Session)) : Prop :=
  l ≡ₚ map_to_list m.

(** [SendToAll] (lines 175-182) over the iteration order [l]. *)
Definition SendToAll (l : list (N * Session)) (w : Writer) : list Effect :=
  RLockE :: map (fun ks => SendE ks.2 w) l ++ [RUnlockE].

(** [SendToAllExcept] (lines 185-196): [if s == session { continue }]. *)
Fixpoint send_except (l : list (N * Session)) (w : Writer) (session : Session)
  : list Effect :=
  match l with
  | [] => []
  | (_, s) :: l' =>
      if ptr s =? ptr session then send_except l' w session
      else SendE s w :: send_except l' w session
  end.

Definition SendToAllExcept (l : list (N * Session)) (w : Writer) (session : Session)
  : list Effect :=
  RLockE :: send_except l w session ++ [RUnlockE].

(** The sessions a trace sends to, in order. *)
Definition sends (tr : list Effect) : list Session :=
  omap (fun e => match e with SendE s _ => Some s | _ => None end) tr.

(** [IsOnline] (lines 199-211): the first session in iteration order with
    [AccountId == account && Verified && LoggedIn] gives its [UserIdx];
    otherwise [INVALID_USER_INDEX].  That constant is declared outside
    src/, so it is a parameter here: any uint16 value. *)
Fixpoint is_online_loop (l : list (N * Session)) (account : Z) : option N :=
  match l with
  | [] => None
  | (_, s) :: l' =>
      if Z.eqb (AccountId (Data s)) account && Verified (Data s) && LoggedIn (Data s)
      then Some (UserIdx s)
      else is_online_loop l' account
  end.

Definition IsOnline (INVALID_USER_INDEX : N) (l : list (N * Session)) (account : Z) : N :=
  match is_online_loop l account with
  | Some index => index
  | None => INVALID_USER_INDEX
  end.

(** [CloseUser] (lines 214-226): closes the first session in iteration
    order whose [UserIdx] is [i]; the map itself is not touched. *)
Fixpoint close_user_loop (l : list (N * Session)) (i : N) : option Session :=
  match l with
  | [] => None
  | (_, s) :: l' => if UserIdx s =? i then Some s else close_user_loop l' i
  end.

Definition CloseUser (l : list (N * Session)) (i : N) : bool * list Effect :=
  match close_user_loop l i with
  | Some s => (true, [RLockE; CloseE s; RUnlockE])
  | None => (false, [RLockE; RUnlockE])
  end.

(** Number of registry read locks held at each [Session.Send] of a trace. *)
Fixpoint send_lock_depths (depth : nat) (tr : list Effect) : list nat :=
  match tr with
  | [] => []
  | RLockE :: tr' => send_lock_depths (S depth) tr'
  | RUnlockE :: tr' => send_lock_depths (Nat.pred depth) tr'
  | SendE _ _ :: tr' => depth :: send_lock_depths depth tr'
  | _ :: tr' => send_lock_depths depth tr'
  end.

(** Well-formed registry: each session is stored under its own identity,
    identities and the running index are uint16 values. *)
Definition wf (n : Network) : Prop :=
  (forall k s, clients n !! k = Some s -> UserIdx s = k /\ k < UINT16) /\
  userIdx n < UINT16.

(** [start, start+1, ..., start+len-1]. *)
Fixpoint Nseq (start : N) (len : nat) : list N :=
  match len with
  | O => []
  | S len' => start :: Nseq (N.succ start) len'
  end.

(** Every uint16 identity is occupied. *)
Definition registry_full (m : gmap N Session) : bool :=
  forallb (fun k => bool_decide (is_Some (m !! k))) (Nseq 0 (N.to_nat UINT16)).

(** [Session{socket: socket}] as built by the accept loop: every other
    field holds its zero value. *)
Definition zero_data : SessionData := mkSessionData false false 0 [].

Definition fresh_session (p : N) (ip : string) : Session :=
  mkSession p 0 0 ip false zero_data None.

(** [GetOnlineUsers] (lines 116-122): [len(n.clients)]. *)
Definition GetOnlineUsers (n : Network) : nat := size (clients n).

(** [GetSession] (lines 132-143): the first session in iteration order
    whose [UserIdx] is [idx], [nil] ([None]) otherwise. *)
Fixpoint GetSession (l : list (N * Session)) (idx : N) : option Session :=
  match l with
  | [] => None
  | (_, value) :: l' => if UserIdx value =? idx then Some value else GetSession l' idx
  end.

End Network.

(** * cmd/gameserver/packet: the [Initialized] handler. *)
Module GamePacket.
Import Network.

Section Initialized.

(** [byte(g_ServerSettings.ServerId)]. *)
Variable ServerId : Z.
(** [g_RPCHandler.Call(rpc.LoadCharacters, ...)]: character list of an
    account on a server. *)
Variable LoadCharacters : Z -> Z -> list Character.
(** [character.DataRes] and [g_RPCHandler.Call(rpc.LoadCharacterData, ...)]. *)
Variable DataRes : Type.
Variable LoadCharacterData : Z -> Z -> DataRes.
(** The INITIALIZED reply built from the character and its data
    (lines 72-207, pure serialisation). *)
Variable initialized_packet : Character -> DataRes -> Writer.

(** The zero [character.Character{}]. *)
Definition zero_character : Character := mkCharacter 0 "".

(** [for _, data := range session.Data.CharacterList { if data.Id == charId { c = data; break } }] *)
Fixpoint fetch_character (l : list Character) (charId : Z) (c : Character) : Character :=
  match l with
  | [] => c
  | data :: l' => if Z.eqb (Id data) charId then data else fetch_character l' charId c
  end.

Definition set_CharacterList (s : Session) (l : list Character) : Session :=
  let d := Data s in
  set_Data s (mkSessionData (Verified d) (LoggedIn d) (AccountId d) l).

(** [Initialized(session, reader)], with [charId] the value of
    [reader.ReadInt32()]. Returns the session after the handler and the
    handler's effects. *)
Definition Initialized (session : Session) (charId : Z) : Session * list Effect :=
  let d := Data session in
  if negb (Verified d) || negb (LoggedIn d) || bool_decide (DataEx session = None) then
    (session, [LogE "User is not verified"])
  else
    match DataEx session with
    | Some (DataExContext ctx) =>
        if negb (Z.eqb (Z.shiftr charId 3) (AccountId d)) then
          (session, [LogE "User is using invalid character id"])
        else
          let '(s1, eff1) :=
            match CharacterList d with
            | [] => (set_CharacterList session (LoadCharacters (AccountId d) ServerId),
                     [RpcE "LoadCharacters"])
            | _ => (session, [])
            end in
          let c := fetch_character (CharacterList (Data s1)) charId zero_character in
          if negb (Z.eqb (Id c) charId) then
            (s1, eff1 ++ [LogE "User is using invalid character id"])
          else
            let res := LoadCharacterData ServerId (Id c) in
            (set_DataEx s1 (Some (DataExContext (mkContext (Some c)))),
             eff1 ++ [RpcE "LoadCharacterData"; SendE s1 (initialized_packet c res)])
    | _ => (session, [LogE "Unable to retrieve user context"])
    end.

(** The character list the handler searches (lines 36-46): the cached
    [session.Data.CharacterList], or the RPC result when it is empty. *)
Definition character_list (session : Session) : list Character :=
  match CharacterList (Data session) with
  | [] => LoadCharacters (AccountId (Data session)) ServerId
  | l => l
  end.

End Initialized.

End GamePacket.

(** * cmd/loginserver/packet/server.go: the [VerifyLinks] handler. *)
Module LoginPacket.
Import Network.

(** [int32(x)]: Go's conversion keeps the low 32 bits, read as signed. *)
Definition int32 (x : Z) : Z :=
  let y := Z.modulo x (2 ^ 32) in if Z.leb (2 ^ 31) y then (y - 2 ^ 32)%Z else y.

(** [account.VerifyReq{timestamp, count, server, channel, ip, account}]. *)
Record VerifyReq := mkVerifyReq {
  req_timestamp : Z; req_count : Z; req_server : Z; req_channel : Z;
  req_ip : string; req_account : Z
}.

Section VerifyLinks.

(** [g_ServerConfig.MagicKey]. *)
Variable MagicKey : Z.
(** [recv.Verified] after [g_RPCHandler.Call(rpc.UserVerify, send, &recv)]. *)
Variable UserVerify : VerifyReq -> bool.
(** The [VERIFYLINKS] opcode. *)
Variable VERIFYLINKS : N.

(** [VerifyLinks(session, reader)], with the five values read from the
    reader in order ([ReadUint32], [ReadUint16], [ReadByte], [ReadByte],
    [ReadInt32]). The reply payload lists the bytes written after
    [NewWriter]. *)
Definition VerifyLinks (session : Session) (timestamp count channel server magickey : Z)
  : list Effect :=
  if negb (Z.eqb magickey (int32 MagicKey)) then [LogE "Invalid MagicKey"]
  else
    let send := mkVerifyReq timestamp count server channel (socket_ip session)
                  (AccountId (Data session)) in
    let verified := UserVerify send in
    [RpcE "UserVerify";
     SendE session (mkWriter VERIFYLINKS [channel; server; if verified then 1%Z else 0%Z])].

End VerifyLinks.

End LoginPacket.

(** * Concrete registry states used by the examples below. *)
Module Fixtures.
Import Network.

Definition s0 : Session := fresh_session 1 "10.0.0.1".
Definition s1 : Session := fresh_session 2 "10.0.0.2".

(** Every identity 0..65535 taken, running index 0. *)
Definition full_clients : gmap N Session :=
  list_to_map (map (fun k => (k, set_UserIdx (fresh_session k "") k))
                   (Nseq 0 (N.to_nat UINT16))).

Definition full_network : Network := mkNetwork full_clients 0.

End Fixtures.

(** * Properties of the registry *)
Module RegistryFacts.
Import Network Fixtures.

Lemma wrap_lt (x : N) : wrap x < UINT16.
Proof. unfold wrap, UINT16. apply N.mod_lt. lia. Qed.

Lemma wrap_small (x : N) : x < UINT16 -> wrap x = x.
Proof. unfold wrap, UINT16. intros H. apply N.mod_small. exact H. Qed.

Lemma scan_free fuel (m : gmap N Session) i j :
  scan fuel m i = Some j -> m !! j = None.
Proof.
  revert i. induction fuel as [|f IH]; intros i H; simpl in H; [discriminate|].
  destruct (m !! i) eqn:E; [eauto|]. injection H as <-. exact E.
Qed.

Lemma scan_lt fuel (m : gmap N Session) i j :
  i < UINT16 -> scan fuel m i = Some j -> j < UINT16.
Proof.
  revert i. induction fuel as [|f IH]; intros i Hi H; simpl in H; [discriminate|].
  destruct (m !! i); [apply (IH _ (wrap_lt _) H)|]. injection H as <-. exact Hi.
Qed.

(** The drop branch of the accept loop (lines 68-73) is never taken:
    the search loop only exits on a free slot. *)
Lemma accept_never_dropped fuel n s n' : accept fuel n s <> Dropped n'.
Proof.
  unfold accept, register_at.
  destruct (clients n !! userIdx n); [|discriminate].
  destruct (scan fuel (clients n) (userIdx n)) as [idx|] eqn:E; [|discriminate].
  rewrite (scan_free _ _ _ _ E). discriminate.
Qed.

Lemma accept_accepted fuel n s n' s' :
  accept fuel n s = Accepted n' s' ->
  clients n !! UserIdx s' = None /\
  clients n' = <[UserIdx s' := s']> (clients n) /\
  s' = set_UserIdx s (UserIdx s') /\
  userIdx n' = wrap (UserIdx s' + 1) /\
  (userIdx n < UINT16 -> UserIdx s' < UINT16).
Proof.
  unfold accept, register_at.
  destruct (clients n !! userIdx n) eqn:E0.
  - destruct (scan fuel (clients n) (userIdx n)) as [idx|] eqn:E; [|discriminate].
    rewrite (scan_free _ _ _ _ E). intros H. injection H as <- <-. simpl.
    split; [exact (scan_free _ _ _ _ E)|]. do 3 (split; [reflexivity|]).
    intros Hlt. exact (scan_lt _ _ _ _ Hlt E).
  - intros H. injection H as <- <-. simpl. auto.
Qed.

Lemma wf_init : wf init.
Proof.
  split; [intros k s H; unfold init in H; simpl in H; rewrite lookup_empty in H; discriminate|].
  unfold init, UINT16; simpl; lia.
Qed.

Lemma wf_step n n' : wf n -> step n n' -> wf n'.
Proof.
  intros [Hm Hu] Hs. destruct Hs as [fuel n s n' s' H|fuel n s n' H|n ev|n i k ip db].
  - destruct (accept_accepted _ _ _ _ _ H) as (_ & Hc & Hs' & Hu' & Hlt).
    specialize (Hlt Hu). unfold wf. split; [|rewrite Hu'; apply wrap_lt].
    intros k s0. rewrite Hc, lookup_insert.
    case_decide as Hk; [subst k; intros E; injection E as <-; auto|apply Hm].
  - exfalso. exact (accept_never_dropped _ _ _ _ H).
  - destruct ev as [s|]; unfold wf; simpl; [|split; assumption].
    split; [|exact Hu]. intros k s0. rewrite lookup_delete.
    case_decide; [discriminate|apply Hm].
  - unfold VerifyUser. destruct (clients n !! i) as [s|] eqn:E; [|split; assumption].
    destruct (_ && _); unfold wf; simpl; [|split; assumption].
    split; [|exact Hu]. intros k0 s0. rewrite lookup_insert.
    case_decide as Hk; [|apply Hm]. subst k0. intros E'. injection E' as <-.
    exact (Hm _ _ E).
Qed.

Lemma rtc_step_wf n n' : rtc step n n' -> wf n -> wf n'.
Proof.
  intros H. induction H as [|x y z Hxy _ IH]; intros Hw; [exact Hw|].
  apply IH. exact (wf_step _ _ Hw Hxy).
Qed.

Lemma reachable_wf n : reachable n -> wf n.
Proof. intros H. exact (rtc_step_wf _ _ H wf_init). Qed.

Lemma wrap_succ_add (i d : N) : wrap (wrap (i + 1) + d) = wrap (i + (1 + d)).
Proof. unfold wrap. rewrite N.Div0.add_mod_idemp_l. f_equal. lia. Qed.

(** The search loop started at [i] exits at the first free slot met
    going upward from [i] (mod 2^16). *)
Lemma scan_spec fuel (m : gmap N Session) i j :
  i < UINT16 -> scan fuel m i = Some j ->
  exists d, j = wrap (i + d) /\ (forall d', d' < d -> is_Some (m !! wrap (i + d'))).
Proof.
  revert i. induction fuel as [|f IH]; intros i Hi H; simpl in H; [discriminate|].
  destruct (m !! i) as [x|] eqn:E.
  - destruct (IH _ (wrap_lt _) H) as (d & -> & Hocc).
    exists (1 + d). split; [apply wrap_succ_add|].
    intros d' Hd'. destruct (N.eq_dec d' 0) as [->|Hne].
    + rewrite N.add_0_r, wrap_small by exact Hi. rewrite E. eexists; reflexivity.
    + replace d' with (1 + (d' - 1)) by lia. rewrite <- wrap_succ_add.
      apply Hocc. lia.
  - injection H as <-. exists 0. rewrite N.add_0_r, wrap_small by exact Hi.
    split; [reflexivity|]. intros d' Hd'. lia.
Qed.

(** A free slot reached after a fully occupied prefix lies less than one
    full turn away. *)
Lemma first_free_within_turn (m : gmap N Session) i d :
  m !! wrap (i + d) = None ->
  (forall d', d' < d -> is_Some (m !! wrap (i + d'))) ->
  d < UINT16.
Proof.
  intros Hfree Hocc. destruct (N.lt_ge_cases d UINT16) as [|Hge]; [assumption|].
  exfalso. assert (Hw : wrap (i + (d - UINT16)) = wrap (i + d)).
  { unfold wrap. replace (i + d) with (i + (d - UINT16) + 1 * UINT16) by lia.
    rewrite N.Div0.mod_add. reflexivity. }
  destruct (Hocc (d - UINT16)) as [x Hx]; [unfold UINT16 in *; lia|].
  rewrite Hw, Hfree in Hx. discriminate.
Qed.

(** When every uint16 identity is occupied the search loop never exits. *)
Lemma scan_full fuel (m : gmap N Session) i :
  (forall k, k < UINT16 -> is_Some (m !! k)) -> i < UINT16 -> scan fuel m i = None.
Proof.
  intros Hfull. revert i. induction fuel as [|f IH]; intros i Hi; [reflexivity|].
  simpl. destruct (Hfull i Hi) as [x ->]. apply IH. apply wrap_lt.
Qed.

Lemma reachable_step n n' : reachable n -> step n n' -> reachable n'.
Proof. intros H Hs. exact (rtc_r _ _ _ H Hs). Qed.

Lemma in_Nseq k start len : In k (Nseq start len) <-> start <= k < start + N.of_nat len.
Proof.
  revert start. induction len as [|len IH]; intros start; simpl; [lia|].
  rewrite IH. lia.
Qed.

Lemma registry_full_spec (m : gmap N Session) :
  registry_full m = true -> forall k, k < UINT16 -> is_Some (m !! k).
Proof.
  unfold registry_full. rewrite forallb_forall. intros H k Hk.
  apply (bool_decide_eq_true (is_Some (m !! k))). apply H. apply in_Nseq.
  rewrite N2Nat.id. lia.
Qed.

Lemma reachable_one : reachable (mkNetwork {[0 := set_UserIdx s0 0]} 1).
Proof.
  eapply reachable_step; [apply rtc_refl|].
  apply (step_accept 1 init s0 _ (set_UserIdx s0 0)). reflexivity.
Qed.

(** Accepting a session and dropping it again moves the running index on
    by one and leaves the registry empty. *)
Lemma reachable_empty (v : N) : v < UINT16 -> reachable (mkNetwork ∅ v).
Proof.
  induction v as [|v IH] using N.peano_ind; intros Hv; [apply rtc_refl|].
  assert (R : reachable (mkNetwork (<[v := set_UserIdx s0 v]> ∅) (wrap (v + 1)))).
  { eapply reachable_step; [apply IH; lia|].
    apply (step_accept 1 (mkNetwork ∅ v) s0 _ (set_UserIdx s0 v)). reflexivity. }
  pose proof (reachable_step _ _ R (step_disconnect _ (Some (set_UserIdx s0 v)))) as R'.
  simpl in R'. rewrite delete_insert_eq, delete_empty, wrap_small in R' by lia.
  rewrite N.add_1_r in R'. exact R'.
Qed.

Lemma sends_SendToAll l w : sends (SendToAll l w) = l.*2.
Proof.
  unfold SendToAll, sends. simpl. induction l as [|[k x] l IH]; simpl; [reflexivity|].
  f_equal. exact IH.
Qed.

Lemma sends_SendToAllExcept l w session :
  sends (SendToAllExcept l w session) = (filter (fun ks => ptr ks.2 ≠ ptr session) l).*2.
Proof.
  unfold SendToAllExcept, sends. simpl. induction l as [|[k x] l IH]; simpl; [reflexivity|].
  rewrite filter_cons. simpl. destruct (N.eqb_spec (ptr x) (ptr session)) as [E|E].
  - rewrite decide_False by (intros H; exact (H E)). exact IH.
  - rewrite decide_True by exact E. simpl. f_equal. exact IH.
Qed.

Lemma wf_NoDup_sessions n : wf n -> NoDup (map_to_list (clients n)).*2.
Proof.
  intros [Hm _]. apply NoDup_fmap_2_strong; [|apply NoDup_map_to_list].
  intros [k1 x1] [k2 x2] H1 H2 E. simpl in E. subst x2.
  apply elem_of_map_to_list in H1, H2.
  destruct (Hm _ _ H1) as [<- _]. destruct (Hm _ _ H2) as [<- _]. reflexivity.
Qed.

Lemma send_lock_depths_map (l : list (N * Session)) w :
  send_lock_depths 1 (map (fun ks => SendE ks.2 w) l ++ [RUnlockE]) = repeat 1%nat (length l).
Proof. induction l as [|x l IH]; simpl; [reflexivity|]. f_equal. exact IH. Qed.

Lemma send_lock_depths_except (l : list (N * Session)) w session :
  Forall (fun d => d = 1%nat) (send_lock_depths 1 (send_except l w session ++ [RUnlockE])).
Proof.
  induction l as [|[k x] l IH]; simpl; [constructor|].
  destruct (ptr x =? ptr session); simpl; [exact IH|]. constructor; [reflexivity|exact IH].
Qed.

Lemma close_user_loop_idx l i x : close_user_loop l i = Some x -> UserIdx x = i.
Proof.
  induction l as [|[k y] l IH]; simpl; [discriminate|].
  destruct (N.eqb_spec (UserIdx y) i) as [E|E]; [|exact IH].
  intros H. injection H as <-. exact E.
Qed.

End RegistryFacts.

(** * The claims *)
Module Claims.
Import Network RegistryFacts Fixtures.

(** C1: along every sequence of accepts, disconnect events and
    verifications from [Init], no two registry entries hold sessions with
    the same identity (each session sits under its own [UserIdx]), and an
    accept only ever inserts under an identity that is currently free. *)
Theorem identity_unique n :
  reachable n ->
  (forall k1 k2 s1 s2, clients n !! k1 = Some s1 -> clients n !! k2 = Some s2 ->
     UserIdx s1 = UserIdx s2 -> k1 = k2) /\
  (forall k s, clients n !! k = Some s -> UserIdx s = k) /\
  (forall fuel s n' s', accept fuel n s = Accepted n' s' ->
     clients n !! UserIdx s' = None /\ clients n' = <[UserIdx s' := s']> (clients n)).
Proof.
  intros R. destruct (reachable_wf _ R) as [Hm _]. split; [|split].
  - intros k1 k2 x1 x2 H1 H2 Heq.
    destruct (Hm _ _ H1) as [<- _]. destruct (Hm _ _ H2) as [<- _]. exact Heq.
  - intros k x H. exact (proj1 (Hm _ _ H)).
  - intros fuel x n' s' H. destruct (accept_accepted _ _ _ _ _ H) as (Hf & Hc & _).
    split; assumption.
Qed.

Lemma identity_unique_witness :
  reachable (mkNetwork {[0 := set_UserIdx s0 0]} 1) /\
  (forall k s, clients (mkNetwork {[0 := set_UserIdx s0 0]} 1) !! k = Some s -> UserIdx s = k).
Proof.
  pose proof reachable_one as R. split; [exact R|]. exact (proj1 (proj2 (identity_unique _ R))).
Defined.

(** C2 (as stated, refuted): after identity 0 is taken and released the
    running index is 1; the next accept assigns 1 although 0 is free and
    lower. *)
Lemma accept_not_lowest_free :
  ~ (forall fuel n s n' s', reachable n -> accept fuel n s = Accepted n' s' ->
       forall j, clients n !! j = None -> UserIdx s' <= j).
Proof.
  intros H.
  set (n1 := onClientDisconnect (mkNetwork {[0 := set_UserIdx s0 0]} 1) (Some (set_UserIdx s0 0))).
  assert (R : reachable n1).
  { eapply reachable_step; [|apply step_disconnect].
    eapply reachable_step; [apply rtc_refl|]. apply (step_accept 1 init s0 _ (set_UserIdx s0 0)).
    reflexivity. }
  assert (A : accept 1 n1 s1 = Accepted (mkNetwork {[1 := set_UserIdx s1 1]} 2) (set_UserIdx s1 1)).
  { reflexivity. }
  specialize (H 1%nat n1 s1 _ _ R A 0 eq_refl). simpl in H. lia.
Qed.

(** C2 (amended): an accept assigns the first free identity met going
    upward from the running index [userIdx] with uint16 wrap-around
    (every identity between them is occupied), inserts the session there
    and moves the running index just past it. *)
Theorem accept_next_fit fuel n s n' s' :
  userIdx n < UINT16 -> accept fuel n s = Accepted n' s' ->
  exists d, d < UINT16 /\ UserIdx s' = wrap (userIdx n + d) /\
    (forall d', d' < d -> is_Some (clients n !! wrap (userIdx n + d'))) /\
    clients n !! UserIdx s' = None /\
    clients n' = <[UserIdx s' := s']> (clients n) /\
    userIdx n' = wrap (UserIdx s' + 1).
Proof.
  intros Hu H. destruct (accept_accepted _ _ _ _ _ H) as (Hf & Hc & _ & Hu' & _).
  assert (Hd : exists d, UserIdx s' = wrap (userIdx n + d) /\
                 (forall d', d' < d -> is_Some (clients n !! wrap (userIdx n + d')))).
  { unfold accept, register_at in H. destruct (clients n !! userIdx n) eqn:E0.
    - destruct (scan fuel (clients n) (userIdx n)) as [idx|] eqn:E; [|discriminate].
      rewrite (scan_free _ _ _ _ E) in H. injection H as <- <-. simpl.
      exact (scan_spec _ _ _ _ Hu E).
    - injection H as <- <-. exists 0. simpl. rewrite N.add_0_r, wrap_small by exact Hu.
      split; [reflexivity|]. intros d' Hd'. lia. }
  destruct Hd as (d & Hj & Hocc). exists d.
  split; [apply (first_free_within_turn (clients n) (userIdx n) d); [rewrite <- Hj|]; assumption|].
  repeat split; assumption.
Qed.

Lemma accept_next_fit_witness :
  userIdx (mkNetwork {[0 := set_UserIdx s0 0]} 0) < UINT16 /\
  exists d, d < UINT16 /\ UserIdx (set_UserIdx s1 1) = wrap (0 + d).
Proof.
  split; [unfold UINT16; simpl; lia|].
  destruct (accept_next_fit 2 (mkNetwork {[0 := set_UserIdx s0 0]} 0) s1
              (mkNetwork (<[1 := set_UserIdx s1 1]> {[0 := set_UserIdx s0 0]}) 2)
              (set_UserIdx s1 1)) as (d & Hd & Hj & _).
  - unfold UINT16; simpl; lia.
  - reflexivity.
  - exists d. split; assumption.
Defined.

(** C3: when every uint16 identity is occupied the accept loop's search
    never exits (it spins holding the registry write lock); the
    "Can't find any available user indexes!" drop branch is never
    reached, for any registry. *)
Theorem accept_full_spins fuel n s :
  registry_full (clients n) = true -> userIdx n < UINT16 ->
  accept fuel n s = Spinning /\ (forall fuel' n', accept fuel' n s <> Dropped n').
Proof.
  intros Hfull Hu. split; [|intros; apply accept_never_dropped].
  pose proof (registry_full_spec _ Hfull) as Hocc.
  unfold accept. destruct (Hocc _ Hu) as [x ->].
  rewrite (scan_full _ _ _ Hocc Hu). reflexivity.
Qed.

Lemma accept_full_spins_witness :
  registry_full (clients full_network) = true /\ userIdx full_network < UINT16 /\
  accept (S (N.to_nat UINT16)) full_network s0 = Spinning.
Proof.
  assert (Hf : registry_full (clients full_network) = true) by (vm_compute; reflexivity).
  assert (Hu : userIdx full_network < UINT16) by (unfold UINT16; simpl; lia).
  split; [exact Hf|]. split; [exact Hu|].
  exact (proj1 (accept_full_spins (S (N.to_nat UINT16)) full_network s0 Hf Hu)).
Defined.

(** C4 (defect): the allocator hands out every uint16 value, the
    [INVALID_USER_INDEX] sentinel included.  For any uint16 sentinel there
    is a reachable registry where the session holding that identity is
    verified and logged in to [account], yet [IsOnline(account)] returns
    the sentinel, whatever the map iteration order. *)
Theorem IsOnline_sentinel_collision (INVALID_USER_INDEX : N) (account : Z) :
  INVALID_USER_INDEX < UINT16 ->
  exists n s, reachable n /\ clients n !! INVALID_USER_INDEX = Some s /\
    Verified (Data s) = true /\ LoggedIn (Data s) = true /\ AccountId (Data s) = account /\
    forall l, go_range (clients n) l ->
      IsOnline INVALID_USER_INDEX l account = INVALID_USER_INDEX.
Proof.
  intros Hv. set (v := INVALID_USER_INDEX).
  set (s' := set_UserIdx s0 v).
  set (n1 := mkNetwork (<[v := s']> ∅) (wrap (v + 1))).
  assert (R1 : reachable n1).
  { eapply reachable_step; [apply (reachable_empty v Hv)|].
    apply (step_accept 1 (mkNetwork ∅ v) s0 _ s'). reflexivity. }
  assert (E : VerifyUser n1 v 0 "10.0.0.1" account =
              (mkNetwork (<[v := verify_data s' account]> (clients n1)) (userIdx n1), true)).
  { unfold VerifyUser. simpl. rewrite lookup_insert_eq. reflexivity. }
  pose proof (reachable_step _ _ R1 (step_verify n1 v 0 "10.0.0.1" account)) as R.
  rewrite E in R. simpl in R.
  exists (mkNetwork (<[v := verify_data s' account]> (<[v := s']> ∅)) (wrap (v + 1))).
  exists (verify_data s' account).
  split; [exact R|]. simpl. rewrite lookup_insert_eq.
  split; [reflexivity|]. do 3 (split; [reflexivity|]).
  intros l Hl. unfold go_range in Hl.
  rewrite insert_insert_eq, insert_empty, map_to_list_singleton in Hl.
  apply Permutation_singleton_r in Hl. subst l.
  unfold IsOnline. simpl. rewrite Z.eqb_refl. reflexivity.
Qed.

Lemma IsOnline_sentinel_collision_witness :
  65535 < UINT16 /\
  exists n s, reachable n /\ clients n !! 65535 = Some s /\
    Verified (Data s) = true /\ LoggedIn (Data s) = true /\ AccountId (Data s) = 7%Z /\
    forall l, go_range (clients n) l -> IsOnline 65535 l 7 = 65535.
Proof.
  assert (H : 65535 < UINT16) by (unfold UINT16; lia).
  split; [exact H|]. exact (IsOnline_sentinel_collision 65535 7 H).
Defined.

(** C5 (as stated, refuted): right after an accept the registry holds the
    new session with [Connected = false] (its zero value), and
    [SendToAll] still calls [Send] on it: the broadcast does not filter on
    [Connected]. *)
Lemma broadcast_reaches_unconnected :
  ~ (forall n l w s, reachable n -> go_range (clients n) l ->
       In s (sends (SendToAll l w)) -> Connected s = true).
Proof.
  intros H.
  assert (G : go_range (clients (mkNetwork {[0 := set_UserIdx s0 0]} 1)) [(0, set_UserIdx s0 0)]).
  { unfold go_range. simpl. rewrite map_to_list_singleton. reflexivity. }
  specialize (H _ _ (mkWriter 0 []) (set_UserIdx s0 0) reachable_one G).
  simpl in H. discriminate (H (or_introl eq_refl)).
Qed.

(** C5 (amended): with the registry locked for the whole loop,
    [SendToAll] calls [Send] exactly once on every session registered at
    the start (whatever its [Connected] flag) and on no other;
    [SendToAllExcept] does the same for every session whose pointer
    differs from the excluded one. *)
Theorem broadcast_exactly_once n l w session :
  wf n -> go_range (clients n) l ->
  sends (SendToAll l w) ≡ₚ (map_to_list (clients n)).*2 /\
  sends (SendToAllExcept l w session) ≡ₚ
    (filter (fun ks => ptr ks.2 ≠ ptr session) (map_to_list (clients n))).*2 /\
  NoDup (map_to_list (clients n)).*2.
Proof.
  intros Hw Hl. unfold go_range in Hl.
  rewrite sends_SendToAll, sends_SendToAllExcept, Hl.
  split; [reflexivity|]. split; [reflexivity|]. exact (wf_NoDup_sessions _ Hw).
Qed.

Lemma broadcast_exactly_once_witness :
  wf (mkNetwork {[0 := set_UserIdx s0 0]} 1) /\
  go_range (clients (mkNetwork {[0 := set_UserIdx s0 0]} 1)) [(0, set_UserIdx s0 0)] /\
  sends (SendToAll [(0, set_UserIdx s0 0)] (mkWriter 0 [])) ≡ₚ [set_UserIdx s0 0].
Proof.
  assert (Hw : wf (mkNetwork {[0 := set_UserIdx s0 0]} 1)) by exact (reachable_wf _ reachable_one).
  assert (G : go_range (clients (mkNetwork {[0 := set_UserIdx s0 0]} 1)) [(0, set_UserIdx s0 0)]).
  { unfold go_range. simpl. rewrite map_to_list_singleton. reflexivity. }
  split; [exact Hw|]. split; [exact G|].
  destruct (broadcast_exactly_once _ _ (mkWriter 0 []) s1 Hw G) as [H _].
  simpl in H. rewrite map_to_list_singleton in H. exact H.
Defined.

(** C6: [SendToUser(i, w)] returns true and sends to the session under
    [i] exactly when that session exists and is connected; otherwise it
    returns false and sends nothing.  Both paths end by releasing the
    read lock (no panic path). *)
Theorem SendToUser_spec n i w :
  let '(b, tr) := SendToUser n i w in
  (b = true <-> exists s, clients n !! i = Some s /\ Connected s = true) /\
  (b = true -> exists s, clients n !! i = Some s /\ sends tr = [s]) /\
  (b = false -> sends tr = []) /\
  last tr = Some RUnlockE.
Proof.
  unfold SendToUser. destruct (clients n !! i) as [s|] eqn:E.
  - destruct (Connected s) eqn:C.
    + split; [split; [intros _; exists s; auto|reflexivity]|].
      split; [intros _; exists s; auto|]. split; [discriminate|reflexivity].
    + split; [split; [discriminate|intros (x & Ex & Cx); congruence]|].
      split; [discriminate|]. split; reflexivity.
  - split; [split; [discriminate|intros (x & Ex & _); discriminate]|].
    split; [discriminate|]. split; reflexivity.
Qed.

(** C7: the disconnect handler deletes only the entry under the event
    session's identity, is a no-op when that identity is absent and is
    idempotent; [CloseUser(i)] leaves the map untouched and closes only
    sessions whose identity is [i]. *)
Theorem disconnect_frame n (s : Session) ev :
  (clients n !! UserIdx s = None -> onClientDisconnect n (Some s) = n) /\
  (forall k, k <> UserIdx s -> clients (onClientDisconnect n (Some s)) !! k = clients n !! k) /\
  onClientDisconnect (onClientDisconnect n ev) ev = onClientDisconnect n ev /\
  (forall l i b tr x, CloseUser l i = (b, tr) -> In (CloseE x) tr -> UserIdx x = i).
Proof.
  split; [|split; [|split]].
  - intros H. destruct n as [m u]. simpl. rewrite delete_id by exact H. reflexivity.
  - intros k Hk. simpl. apply lookup_delete_ne. congruence.
  - destruct ev as [x|]; simpl; [|reflexivity]. rewrite delete_delete_eq. reflexivity.
  - intros l i b tr x. unfold CloseUser. destruct (close_user_loop l i) as [y|] eqn:E.
    + intros H. injection H as <- <-. simpl.
      intros [H|[H|[H|[]]]]; try discriminate. injection H as <-.
      exact (close_user_loop_idx _ _ _ E).
    + intros H. injection H as <- <-. simpl. intros [H|[H|[]]]; discriminate.
Qed.

(** C8 (as stated, refuted): [SendToUser] on a connected session calls
    [Send] while the registry read lock is held. *)
Lemma send_holds_registry_lock :
  ~ (forall n i w b tr, SendToUser n i w = (b, tr) ->
       Forall (fun d => d = 0%nat) (send_lock_depths 0 tr)).
Proof.
  intros H.
  set (c := mkSession 1 0 0 "10.0.0.1" true zero_data None).
  specialize (H (mkNetwork {[0 := c]} 1) 0 (mkWriter 0 []) true
                [RLockE; SendE c (mkWriter 0 []); RUnlockE] eq_refl).
  simpl in H. inversion H. discriminate.
Qed.

(** C8 (amended): [SendToUser], [SendToAll] and [SendToAllExcept] call
    [Send] with the registry read lock held, and release it only after
    the last send. *)
Theorem sends_under_registry_lock n i w l session :
  Forall (fun d => d = 1%nat) (send_lock_depths 0 (SendToUser n i w).2) /\
  Forall (fun d => d = 1%nat) (send_lock_depths 0 (SendToAll l w)) /\
  Forall (fun d => d = 1%nat) (send_lock_depths 0 (SendToAllExcept l w session)).
Proof.
  split; [|split].
  - unfold SendToUser. destruct (clients n !! i) as [x|]; [|constructor].
    destruct (Connected x); simpl; repeat constructor.
  - unfold SendToAll. simpl. rewrite send_lock_depths_map.
    apply List.Forall_forall. intros d Hd. apply repeat_spec in Hd. exact Hd.
  - unfold SendToAllExcept. simpl. apply send_lock_depths_except.
Qed.

(** C10: [VerifyUser(i, k, ip, db_idx)] succeeds exactly when a session
    is registered under [i] with auth key [k] and remote IP [ip]; it then
    sets that session's [Verified], [LoggedIn] and [AccountId] and leaves
    every other entry and the running index alone; otherwise the registry
    is unchanged. *)
Theorem VerifyUser_spec n i k ip db_idx :
  let '(n', b) := VerifyUser n i k ip db_idx in
  (b = true <-> exists s, clients n !! i = Some s /\ AuthKey s = k /\ socket_ip s = ip) /\
  (b = true -> exists s, clients n' !! i = Some s /\
      Verified (Data s) = true /\ LoggedIn (Data s) = true /\ AccountId (Data s) = db_idx /\
      (forall j, j <> i -> clients n' !! j = clients n !! j) /\ userIdx n' = userIdx n) /\
  (b = false -> n' = n).
Proof.
  unfold VerifyUser. destruct (clients n !! i) as [s|] eqn:E.
  - destruct (N.eqb_spec (AuthKey s) k) as [Hk|Hk]; simpl.
    + destruct (String.eqb_spec (socket_ip s) ip) as [Hi|Hi].
      * split; [split; [intros _; exists s; auto|reflexivity]|].
        split; [|discriminate]. intros _. exists (verify_data s db_idx). simpl.
        rewrite lookup_insert_eq. repeat split; try reflexivity.
        intros j Hj. apply lookup_insert_ne. congruence.
      * split; [split; [discriminate|intros (x & Ex & _ & Ix); congruence]|].
        split; [discriminate|reflexivity].
    + split; [split; [discriminate|intros (x & Ex & Kx & _); congruence]|].
      split; [discriminate|reflexivity].
  - split; [split; [discriminate|intros (x & Ex & _); discriminate]|].
    split; [discriminate|reflexivity].
Qed.

End Claims.

(** * The gameserver [Initialized] handler *)
Module HandlerClaims.
Import Network GamePacket Fixtures.

(** C9: a session whose [Verified] or [LoggedIn] flag is unset gets its
    Initialized packet rejected: one log line, no reply, no RPC, no
    close, and the session (its payload included) is left as it was. *)
Theorem Initialized_rejects_unverified ServerId LoadCharacters DataRes LoadCharacterData
    initialized_packet (session : Session) (charId : Z) :
  Verified (Data session) = false \/ LoggedIn (Data session) = false ->
  Initialized ServerId LoadCharacters DataRes LoadCharacterData initialized_packet session charId
  = (session, [LogE "User is not verified"]).
Proof.
  intros [H|H]; unfold Initialized; rewrite H; simpl; [reflexivity|].
  rewrite orb_true_r. reflexivity.
Qed.

Lemma Initialized_rejects_unverified_witness :
  let session := mkSession 1 0 0 "10.0.0.1" true (mkSessionData false true 8 [])
                   (Some (DataExContext (mkContext None))) in
  (Verified (Data session) = false \/ LoggedIn (Data session) = false) /\
  Initialized 1 (fun _ _ => [mkCharacter 64 "a"]) unit (fun _ _ => tt)
    (fun _ _ => mkWriter 0 []) session 64 = (session, [LogE "User is not verified"]).
Proof.
  intros session. assert (H : Verified (Data session) = false \/ LoggedIn (Data session) = false).
  { left. reflexivity. }
  split; [exact H|]. exact (Initialized_rejects_unverified _ _ _ _ _ session 64 H).
Defined.

End HandlerClaims.

(** * Further properties of the registry readers and the handlers *)
Module ExtraFacts.
Import Network RegistryFacts.


Lemma GetSession_Some l idx v :
  GetSession l idx = Some v -> (exists k, In (k, v) l) /\ UserIdx v = idx.
Proof.
  induction l as [|[k x] l IH]; simpl; [discriminate|].
  destruct (N.eqb_spec (UserIdx x) idx) as [E|E].
  - intros H. injection H as <-. split; [exists k; left; reflexivity|exact E].
  - intros H. destruct (IH H) as [[k' Hk'] Hv]. split; [exists k'; right; exact Hk'|exact Hv].
Qed.

Lemma GetSession_None l idx :
  GetSession l idx = None -> forall k v, In (k, v) l -> UserIdx v <> idx.
Proof.
  induction l as [|[k x] l IH]; simpl; [intros _ k v []|].
  destruct (N.eqb_spec (UserIdx x) idx) as [E|E]; [discriminate|].
  intros H k' v [Hin|Hin]; [injection Hin as <- <-; exact E|exact (IH H _ _ Hin)].
Qed.

Lemma in_go_range m l k v : go_range m l -> (In (k, v) l <-> m !! k = Some v).
Proof.
  intros Hl. rewrite <- elem_of_map_to_list, list_elem_of_In. split.
  - intros H. exact (Permutation_in _ Hl H).
  - intros H. exact (Permutation_in _ (Permutation_sym Hl) H).
Qed.

(** On a well-formed registry the scan of [GetSession] finds exactly the
    entry stored under the identity. *)
Lemma GetSession_lookup n l idx :
  wf n -> go_range (clients n) l -> GetSession l idx = clients n !! idx.
Proof.
  intros [Hm _] Hl. destruct (GetSession l idx) as [v|] eqn:E.
  - destruct (GetSession_Some _ _ _ E) as [[k Hk] Hv].
    apply (in_go_range _ _ _ _ Hl) in Hk. destruct (Hm _ _ Hk) as [Hkv _].
    rewrite <- Hv, Hkv. symmetry. exact Hk.
  - destruct (clients n !! idx) as [v|] eqn:Ev; [|reflexivity]. exfalso.
    apply (GetSession_None _ _ E idx v); [apply (in_go_range _ _ _ _ Hl); exact Ev|].
    exact (proj1 (Hm _ _ Ev)).
Qed.

Lemma close_user_loop_GetSession l i : close_user_loop l i = GetSession l i.
Proof. induction l as [|[k x] l IH]; simpl; [reflexivity|]. rewrite IH. reflexivity. Qed.

Lemma is_online_loop_Some l account i :
  is_online_loop l account = Some i ->
  exists k s, In (k, s) l /\ UserIdx s = i /\
    AccountId (Data s) = account /\ Verified (Data s) = true /\ LoggedIn (Data s) = true.
Proof.
  induction l as [|[k x] l IH]; simpl; [discriminate|].
  destruct (Z.eqb_spec (AccountId (Data x)) account) as [Ea|Ea];
    destruct (Verified (Data x)) eqn:Ev; destruct (LoggedIn (Data x)) eqn:El; simpl;
    try (intros H; destruct (IH H) as (k' & s & Hin & R); exists k', s; split; [right; exact Hin|exact R]).
  intros H. injection H as <-. exists k, x. auto.
Qed.

Lemma is_online_loop_None l account :
  is_online_loop l account = None ->
  forall k s, In (k, s) l -> AccountId (Data s) = account ->
    Verified (Data s) = true -> LoggedIn (Data s) = true -> False.
Proof.
  induction l as [|[k x] l IH]; simpl; [intros _ k s []|].
  intros H k' s [Hin|Hin] Ha Hv Hl'.
  - injection Hin as <- <-. rewrite Ha, Z.eqb_refl, Hv, Hl' in H. discriminate.
  - destruct (_ && _ && _); [discriminate|]. exact (IH H _ _ Hin Ha Hv Hl').
Qed.

Lemma send_except_all l w session :
  (forall k v, In (k, v) l -> ptr v <> ptr session) ->
  send_except l w session = map (fun ks => SendE ks.2 w) l.
Proof.
  induction l as [|[k x] l IH]; simpl; intros H; [reflexivity|].
  destruct (N.eqb_spec (ptr x) (ptr session)) as [E|E].
  - exfalso. exact (H k x (or_introl eq_refl) E).
  - f_equal. apply IH. intros k' v Hin. exact (H k' v (or_intror Hin)).
Qed.

End ExtraFacts.

Module Extras.
Import Network RegistryFacts ExtraFacts Fixtures.



(** X2: [GetOnlineUsers] goes up by one on each successful accept, down by
    one when a registered identity disconnects, and is unchanged by a
    disconnect of an absent identity and by [VerifyUser]. *)
Theorem GetOnlineUsers_accounting n :
  (forall fuel s n' s', accept fuel n s = Accepted n' s' ->
     GetOnlineUsers n' = S (GetOnlineUsers n)) /\
  (forall s, is_Some (clients n !! UserIdx s) ->
     GetOnlineUsers (onClientDisconnect n (Some s)) = Nat.pred (GetOnlineUsers n)) /\
  (forall s, clients n !! UserIdx s = None ->
     GetOnlineUsers (onClientDisconnect n (Some s)) = GetOnlineUsers n) /\
  (forall i k ip db, GetOnlineUsers (fst (VerifyUser n i k ip db)) = GetOnlineUsers n).
Proof.
  unfold GetOnlineUsers. split; [|split; [|split]].
  - intros fuel s n' s' H. destruct (accept_accepted _ _ _ _ _ H) as (Hf & Hc & _).
    rewrite Hc. apply map_size_insert_None. exact Hf.
  - intros s H. simpl. apply map_size_delete_Some. exact H.
  - intros s H. simpl. apply map_size_delete_None. exact H.
  - intros i k ip db. unfold VerifyUser. destruct (clients n !! i) as [s|] eqn:E; [|reflexivity].
    destruct (_ && _); simpl; [|reflexivity].
    rewrite map_size_insert, E. reflexivity.
Qed.

(** X3: accepting a session and then delivering its disconnect event
    restores the registry's map; only the running index has moved on. *)
Theorem accept_disconnect_roundtrip fuel n s n' s' :
  accept fuel n s = Accepted n' s' ->
  onClientDisconnect n' (Some s') = mkNetwork (clients n) (userIdx n').
Proof.
  intros H. destruct (accept_accepted _ _ _ _ _ H) as (Hf & Hc & _). simpl.
  rewrite Hc, delete_insert_eq, delete_id by exact Hf. reflexivity.
Qed.

Lemma accept_disconnect_roundtrip_witness :
  accept 1 init s0 = Accepted (mkNetwork {[0 := set_UserIdx s0 0]} 1) (set_UserIdx s0 0) /\
  onClientDisconnect (mkNetwork {[0 := set_UserIdx s0 0]} 1) (Some (set_UserIdx s0 0)) =
    mkNetwork ∅ 1.
Proof.
  assert (H : accept 1 init s0 = Accepted (mkNetwork {[0 := set_UserIdx s0 0]} 1) (set_UserIdx s0 0))
    by reflexivity.
  split; [exact H|]. exact (accept_disconnect_roundtrip _ _ _ _ _ H).
Defined.

(** X4: on a well-formed registry (every reachable one), [GetSession(idx)]
    returns the session registered under [idx], or nil when there is none,
    whatever the map iteration order. *)
Theorem GetSession_spec n l idx :
  wf n -> go_range (clients n) l -> GetSession l idx = clients n !! idx.
Proof. apply GetSession_lookup. Qed.

Lemma GetSession_spec_witness :
  wf (mkNetwork {[0 := set_UserIdx s0 0]} 1) /\
  go_range {[0 := set_UserIdx s0 0]} [(0, set_UserIdx s0 0)] /\
  GetSession [(0, set_UserIdx s0 0)] 0 = Some (set_UserIdx s0 0).
Proof.
  assert (Hw : wf (mkNetwork {[0 := set_UserIdx s0 0]} 1)) by exact (reachable_wf _ reachable_one).
  assert (G : go_range {[0 := set_UserIdx s0 0]} [(0, set_UserIdx s0 0)]).
  { unfold go_range. rewrite map_to_list_singleton. reflexivity. }
  split; [exact Hw|]. split; [exact G|].
  rewrite (GetSession_spec _ _ 0 Hw G). reflexivity.
Defined.

(** X5: on a well-formed registry [CloseUser(i)] returns true exactly when
    a session is registered under [i], and then closes that session and
    no other; otherwise it closes nothing. *)
Theorem CloseUser_spec n l i :
  wf n -> go_range (clients n) l ->
  CloseUser l i = match clients n !! i with
                  | Some s => (true, [RLockE; CloseE s; RUnlockE])
                  | None => (false, [RLockE; RUnlockE])
                  end.
Proof.
  intros Hw Hl. unfold CloseUser. rewrite close_user_loop_GetSession, (GetSession_lookup _ _ _ Hw Hl).
  reflexivity.
Qed.

Lemma CloseUser_spec_witness :
  wf (mkNetwork {[0 := set_UserIdx s0 0]} 1) /\
  go_range {[0 := set_UserIdx s0 0]} [(0, set_UserIdx s0 0)] /\
  CloseUser [(0, set_UserIdx s0 0)] 5 = (false, [RLockE; RUnlockE]).
Proof.
  assert (Hw : wf (mkNetwork {[0 := set_UserIdx s0 0]} 1)) by exact (reachable_wf _ reachable_one).
  assert (G : go_range {[0 := set_UserIdx s0 0]} [(0, set_UserIdx s0 0)]).
  { unfold go_range. rewrite map_to_list_singleton. reflexivity. }
  split; [exact Hw|]. split; [exact G|].
  rewrite (CloseUser_spec _ _ 5 Hw G). reflexivity.
Defined.

(** X6: on a well-formed registry, [IsOnline(account)] returns either the
    sentinel or the identity of a registered session that is verified,
    logged in and on [account]; it returns the sentinel when no such
    session exists; and when such sessions exist and none of them holds
    the sentinel's identity, it returns one of them. *)
Theorem IsOnline_spec (INVALID_USER_INDEX : N) n l account :
  wf n -> go_range (clients n) l ->
  let r := IsOnline INVALID_USER_INDEX l account in
  let matching s := AccountId (Data s) = account /\ Verified (Data s) = true /\
                    LoggedIn (Data s) = true in
  (r = INVALID_USER_INDEX \/ exists s, clients n !! r = Some s /\ matching s) /\
  ((forall k s, clients n !! k = Some s -> ~ matching s) -> r = INVALID_USER_INDEX) /\
  ((exists k s, clients n !! k = Some s /\ matching s) ->
   (forall k s, clients n !! k = Some s -> matching s -> k <> INVALID_USER_INDEX) ->
   exists s, clients n !! r = Some s /\ matching s).
Proof.
  intros [Hm _] Hl r matching. unfold r, IsOnline.
  destruct (is_online_loop l account) as [i|] eqn:E.
  - destruct (is_online_loop_Some _ _ _ E) as (k & s & Hin & Hi & Ha & Hv & Hlg).
    apply (in_go_range _ _ _ _ Hl) in Hin. destruct (Hm _ _ Hin) as [Hk _].
    assert (Hs : clients n !! i = Some s) by (rewrite <- Hi, Hk; exact Hin).
    split; [right; exists s; split; [exact Hs|split; [exact Ha|split; assumption]]|].
    split; [intros Hno; exfalso; apply (Hno _ _ Hs); split; [exact Ha|split; assumption]|].
    intros _ _. exists s. split; [exact Hs|split; [exact Ha|split; assumption]].
  - split; [left; reflexivity|]. split; [intros _; reflexivity|].
    intros (k & s & Hs & Ha & Hv & Hlg) _. exfalso.
    apply (is_online_loop_None _ _ E k s); [apply (in_go_range _ _ _ _ Hl); exact Hs|..]; assumption.
Qed.

Lemma IsOnline_spec_witness :
  wf (mkNetwork {[0 := set_UserIdx s0 0]} 1) /\
  go_range {[0 := set_UserIdx s0 0]} [(0, set_UserIdx s0 0)] /\
  IsOnline 65535 [(0, set_UserIdx s0 0)] 7 = 65535.
Proof.
  assert (Hw : wf (mkNetwork {[0 := set_UserIdx s0 0]} 1)) by exact (reachable_wf _ reachable_one).
  assert (G : go_range {[0 := set_UserIdx s0 0]} [(0, set_UserIdx s0 0)]).
  { unfold go_range. rewrite map_to_list_singleton. reflexivity. }
  split; [exact Hw|]. split; [exact G|].
  apply (proj1 (proj2 (IsOnline_spec 65535 (mkNetwork {[0 := set_UserIdx s0 0]} 1) _ 7 Hw G))).
  intros k s Hs [Ha _]. simpl in Hs. rewrite lookup_singleton in Hs.
  destruct (decide (0 = k)); [injection Hs as <-; discriminate|discriminate].
Defined.

(** X7: [SendToAllExcept] with a session that is not registered (its
    pointer matches no registered session) behaves exactly as
    [SendToAll]. *)
Theorem SendToAllExcept_unregistered n l w session :
  go_range (clients n) l ->
  (forall k v, clients n !! k = Some v -> ptr v <> ptr session) ->
  SendToAllExcept l w session = SendToAll l w.
Proof.
  intros Hl Hp. unfold SendToAllExcept, SendToAll. rewrite send_except_all; [reflexivity|].
  intros k v Hin. apply (Hp k v). apply (in_go_range _ _ _ _ Hl). exact Hin.
Qed.

Lemma SendToAllExcept_unregistered_witness :
  go_range {[0 := set_UserIdx s0 0]} [(0, set_UserIdx s0 0)] /\
  SendToAllExcept [(0, set_UserIdx s0 0)] (mkWriter 0 []) s1 =
    SendToAll [(0, set_UserIdx s0 0)] (mkWriter 0 []).
Proof.
  assert (G : go_range {[0 := set_UserIdx s0 0]} [(0, set_UserIdx s0 0)]).
  { unfold go_range. rewrite map_to_list_singleton. reflexivity. }
  split; [exact G|].
  apply (SendToAllExcept_unregistered (mkNetwork {[0 := set_UserIdx s0 0]} 1) _ _ s1 G).
  intros k v Hv. simpl in Hv. rewrite lookup_singleton in Hv.
  destruct (decide (0 = k)); [injection Hv as <-; discriminate|discriminate].
Defined.

End Extras.

(** * Helper facts on the handlers *)
Module HandlerFacts.
Import Network GamePacket LoginPacket.

Lemma fetch_character_found l charId d :
  existsb (fun c => Z.eqb (Id c) charId) l = true ->
  Id (fetch_character l charId d) = charId /\ In (fetch_character l charId d) l.
Proof.
  induction l as [|x l IH]; simpl; [discriminate|].
  destruct (Z.eqb_spec (Id x) charId) as [E|E]; simpl.
  - intros _. split; [exact E|left; reflexivity].
  - intros H. destruct (IH H) as [H1 H2]. split; [exact H1|right; exact H2].
Qed.

Lemma fetch_character_missing l charId d :
  existsb (fun c => Z.eqb (Id c) charId) l = false -> fetch_character l charId d = d.
Proof.
  induction l as [|x l IH]; simpl; [reflexivity|].
  destruct (Z.eqb (Id x) charId); simpl; [discriminate|exact IH].
Qed.

(** [Initialized] once the four guards have passed. *)
Lemma Initialized_verified_unfold ServerId LoadCharacters DataRes LoadCharacterData
    initialized_packet (session : Session) ctx charId :
  Verified (Data session) = true -> LoggedIn (Data session) = true ->
  DataEx session = Some (DataExContext ctx) -> Z.shiftr charId 3 = AccountId (Data session) ->
  Initialized ServerId LoadCharacters DataRes LoadCharacterData initialized_packet session charId =
  let s1 := match CharacterList (Data session) with
            | [] => set_CharacterList session (LoadCharacters (AccountId (Data session)) ServerId)
            | _ => session
            end in
  let eff1 := match CharacterList (Data session) with
              | [] => [RpcE "LoadCharacters"]
              | _ => []
              end in
  let c := fetch_character (character_list ServerId LoadCharacters session) charId zero_character in
  if Z.eqb (Id c) charId then
    (set_DataEx s1 (Some (DataExContext (mkContext (Some c)))),
     eff1 ++ [RpcE "LoadCharacterData";
              SendE s1 (initialized_packet c (LoadCharacterData ServerId (Id c)))])
  else (s1, eff1 ++ [LogE "User is using invalid character id"]).
Proof.
  intros Hv Hl Hd Ha. unfold Initialized, character_list. rewrite Hv, Hl, Hd, Ha, Z.eqb_refl.
  cbn -[fetch_character]. destruct (CharacterList (Data session)) as [|c0 cs] eqn:CL; cbn -[fetch_character];
    rewrite ?CL; set (c := fetch_character _ charId zero_character); destruct (Z.eqb (Id c) charId); reflexivity.
Qed.

Lemma sends_app tr1 tr2 : sends (tr1 ++ tr2) = sends tr1 ++ sends tr2.
Proof. unfold sends. apply omap_app. Qed.

(** Go's [int32(x)] lies in the int32 range and agrees with [x] modulo 2^32. *)
Lemma int32_range_mod (x : Z) :
  (- 2 ^ 31 <= int32 x < 2 ^ 31)%Z /\ Z.modulo (int32 x) (2 ^ 32) = Z.modulo x (2 ^ 32).
Proof.
  unfold int32. pose proof (Z.mod_pos_bound x (2 ^ 32) ltac:(lia)) as Hb.
  destruct (Z.leb_spec (2 ^ 31) (x mod 2 ^ 32)) as [H|H].
  - split; [lia|]. rewrite <- (Z.mod_add _ 1 (2 ^ 32)) by lia.
    replace (x mod 2 ^ 32 - 2 ^ 32 + 1 * 2 ^ 32)%Z with (x mod 2 ^ 32)%Z by lia.
    apply Z.mod_mod. lia.
  - split; [lia|]. apply Z.mod_mod. lia.
Qed.

Lemma int32_eq_iff (m x : Z) :
  (- 2 ^ 31 <= m < 2 ^ 31)%Z -> m = int32 x <-> Z.modulo m (2 ^ 32) = Z.modulo x (2 ^ 32).
Proof.
  intros Hm. destruct (int32_range_mod x) as [Hr Hmod]. split.
  - intros ->. exact Hmod.
  - intros H. rewrite <- Hmod in H.
    assert (E : Z.modulo (m - int32 x) (2 ^ 32) = 0%Z).
    { rewrite Zminus_mod, H, Z.sub_diag. reflexivity. }
    apply Z.mod_divide in E; [|lia]. destruct E as [q Hq].
    assert (q = 0%Z) by nia. subst q. lia.
Qed.

End HandlerFacts.

Module HandlerExtras.
Import Network GamePacket LoginPacket RegistryFacts ExtraFacts HandlerFacts Fixtures.

(** X8: [Initialized] makes no RPC call, sends nothing and leaves the
    session untouched (one log line only) unless the session is verified,
    logged in, carries a gameserver context, and [charId >> 3] equals its
    account id. *)
Theorem Initialized_guards ServerId LoadCharacters DataRes LoadCharacterData
    initialized_packet (session : Session) (charId : Z) :
  ~ (Verified (Data session) = true /\ LoggedIn (Data session) = true /\
     (exists ctx, DataEx session = Some (DataExContext ctx)) /\
     Z.shiftr charId 3 = AccountId (Data session)) ->
  exists msg, Initialized ServerId LoadCharacters DataRes LoadCharacterData
                initialized_packet session charId = (session, [LogE msg]).
Proof.
  intros Hn. unfold Initialized.
  destruct (Verified (Data session)) eqn:Hv; simpl; [|eexists; reflexivity].
  destruct (LoggedIn (Data session)) eqn:Hl; simpl; [|eexists; reflexivity].
  destruct (DataEx session) as [[ctx|]|] eqn:Hd; simpl; try (eexists; reflexivity).
  destruct (Z.eqb_spec (Z.shiftr charId 3) (AccountId (Data session))) as [E|E];
    simpl; [|eexists; reflexivity].
  exfalso. apply Hn. split; [reflexivity|]. split; [reflexivity|].
  split; [exists ctx; reflexivity|exact E].
Qed.

Lemma Initialized_guards_witness :
  let session := mkSession 1 0 0 "10.0.0.1" true (mkSessionData true true 8 [])
                   (Some (DataExContext (mkContext None))) in
  ~ (Verified (Data session) = true /\ LoggedIn (Data session) = true /\
     (exists ctx, DataEx session = Some (DataExContext ctx)) /\
     Z.shiftr 7 3 = AccountId (Data session)) /\
  exists msg, Initialized 1 (fun _ _ => [mkCharacter 7 "a"]) unit (fun _ _ => tt)
                (fun _ _ => mkWriter 0 []) session 7 = (session, [LogE msg]).
Proof.
  intros session.
  assert (H : ~ (Verified (Data session) = true /\ LoggedIn (Data session) = true /\
     (exists ctx, DataEx session = Some (DataExContext ctx)) /\
     Z.shiftr 7 3 = AccountId (Data session))).
  { intros (_ & _ & _ & E). simpl in E. discriminate. }
  split; [exact H|]. exact (Initialized_guards _ _ _ _ _ session 7 H).
Defined.

(** X9: once the guards pass, [Initialized] replies (exactly one packet,
    to the same session) and stores in the context a character whose id
    is [charId] when the character list holds such a character, and also
    when [charId] is 0 (the zero [character.Character{}] then passes the
    id check); otherwise it sends nothing and leaves the context alone. *)
Theorem Initialized_verified_outcome ServerId LoadCharacters DataRes LoadCharacterData
    initialized_packet (session : Session) ctx (charId : Z) :
  Verified (Data session) = true -> LoggedIn (Data session) = true ->
  DataEx session = Some (DataExContext ctx) -> Z.shiftr charId 3 = AccountId (Data session) ->
  let res := Initialized ServerId LoadCharacters DataRes LoadCharacterData
               initialized_packet session charId in
  let L := character_list ServerId LoadCharacters session in
  ((existsb (fun c => Z.eqb (Id c) charId) L = true \/ charId = 0%Z) ->
     exists c, Id c = charId /\ (In c L \/ c = zero_character) /\
       DataEx res.1 = Some (DataExContext (mkContext (Some c))) /\
       exists s1, sends res.2 = [s1] /\ ptr s1 = ptr session) /\
  (existsb (fun c => Z.eqb (Id c) charId) L = false -> charId <> 0%Z ->
     sends res.2 = [] /\ DataEx res.1 = DataEx session).
Proof.
  intros Hv Hl Hd Ha res L. unfold res.
  rewrite (Initialized_verified_unfold _ _ _ _ _ _ _ _ Hv Hl Hd Ha). fold L. cbv zeta.
  assert (Hs1 : forall s1 : Session, (s1 = session \/ s1 = set_CharacterList session
                   (LoadCharacters (AccountId (Data session)) ServerId)) ->
                ptr s1 = ptr session /\ DataEx s1 = DataEx session).
  { intros s1 [->| ->]; split; reflexivity. }
  assert (Hcase : exists s1, (s1 = session \/ s1 = set_CharacterList session
                   (LoadCharacters (AccountId (Data session)) ServerId)) /\
            match CharacterList (Data session) with
            | [] => set_CharacterList session (LoadCharacters (AccountId (Data session)) ServerId)
            | _ => session end = s1 /\
            sends (match CharacterList (Data session) with
                   | [] => [RpcE "LoadCharacters"] | _ => [] end) = []).
  { destruct (CharacterList (Data session)); eexists; split; [right; reflexivity| |left; reflexivity|];
      split; reflexivity. }
  destruct Hcase as (s1 & Hor & -> & Heff). destruct (Hs1 _ Hor) as [Hp Hx].
  split.
  - intros Hc.
    assert (Hf : Id (fetch_character L charId zero_character) = charId /\
                 (In (fetch_character L charId zero_character) L \/
                  fetch_character L charId zero_character = zero_character)).
    { destruct (existsb (fun c => Z.eqb (Id c) charId) L) eqn:Ex.
      - destruct (fetch_character_found _ _ zero_character Ex) as [H1 H2]. auto.
      - destruct Hc as [Hc|Hc]; [discriminate|]. rewrite fetch_character_missing by exact Ex.
        subst charId. auto. }
    destruct Hf as [Hid Hin]. rewrite Hid, Z.eqb_refl. simpl.
    exists (fetch_character L charId zero_character). split; [exact Hid|]. split; [exact Hin|].
    split; [reflexivity|]. exists s1. rewrite sends_app, Heff. split; [reflexivity|exact Hp].
  - intros Ex Hnz. rewrite fetch_character_missing by exact Ex. cbn [Id zero_character].
    destruct (Z.eqb_spec 0 charId) as [E|E]; [congruence|]. cbn [fst snd].
    rewrite sends_app, Heff. split; [reflexivity|exact Hx].
Qed.

Lemma Initialized_verified_outcome_witness :
  let session := mkSession 1 0 0 "10.0.0.1" true (mkSessionData true true 8 [])
                   (Some (DataExContext (mkContext None))) in
  Verified (Data session) = true /\ LoggedIn (Data session) = true /\
  DataEx session = Some (DataExContext (mkContext None)) /\ Z.shiftr 64 3 = AccountId (Data session) /\
  exists c, Id c = 64%Z /\
    DataEx (Initialized 1 (fun _ _ => [mkCharacter 64 "a"]) unit (fun _ _ => tt)
              (fun _ _ => mkWriter 0 []) session 64).1 = Some (DataExContext (mkContext (Some c))).
Proof.
  intros session.
  assert (Hv : Verified (Data session) = true) by reflexivity.
  assert (Hl : LoggedIn (Data session) = true) by reflexivity.
  assert (Hd : DataEx session = Some (DataExContext (mkContext None))) by reflexivity.
  assert (Ha : Z.shiftr 64 3 = AccountId (Data session)) by reflexivity.
  do 4 (split; [assumption|]).
  destruct (proj1 (Initialized_verified_outcome 1 (fun _ _ => [mkCharacter 64 "a"]) unit
            (fun _ _ => tt) (fun _ _ => mkWriter 0 []) session _ 64 Hv Hl Hd Ha)
            (or_introl eq_refl)) as (c & Hc & _ & Hx & _).
  exists c. split; assumption.
Defined.

(** X10: past the guards, [Initialized] calls [rpc.LoadCharacters] exactly
    when the session's cached character list is empty, and leaves the
    session with the list it searched cached in [Data.CharacterList]. *)
Theorem Initialized_character_cache ServerId LoadCharacters DataRes LoadCharacterData
    initialized_packet (session : Session) ctx (charId : Z) :
  Verified (Data session) = true -> LoggedIn (Data session) = true ->
  DataEx session = Some (DataExContext ctx) -> Z.shiftr charId 3 = AccountId (Data session) ->
  let res := Initialized ServerId LoadCharacters DataRes LoadCharacterData
               initialized_packet session charId in
  CharacterList (Data res.1) = character_list ServerId LoadCharacters session /\
  (In (RpcE "LoadCharacters") res.2 <-> CharacterList (Data session) = []).
Proof.
  intros Hv Hl Hd Ha res. unfold res.
  rewrite (Initialized_verified_unfold _ _ _ _ _ _ _ _ Hv Hl Hd Ha). cbv zeta.
  unfold character_list. destruct (CharacterList (Data session)) as [|c0 cs] eqn:CL.
  - destruct (Z.eqb _ charId); simpl; (split; [reflexivity|split; [intros _; reflexivity|auto]]).
  - destruct (Z.eqb _ charId); simpl; rewrite CL;
      (split; [reflexivity|split; [|discriminate]]);
      intros H; repeat (destruct H as [H|H]; [discriminate|]); destruct H.
Qed.

Lemma Initialized_character_cache_witness :
  let session := mkSession 1 0 0 "10.0.0.1" true (mkSessionData true true 8 [])
                   (Some (DataExContext (mkContext None))) in
  Verified (Data session) = true /\ LoggedIn (Data session) = true /\
  DataEx session = Some (DataExContext (mkContext None)) /\ Z.shiftr 64 3 = AccountId (Data session) /\
  CharacterList (Data (Initialized 1 (fun _ _ => [mkCharacter 64 "a"]) unit (fun _ _ => tt)
              (fun _ _ => mkWriter 0 []) session 64).1) = [mkCharacter 64 "a"].
Proof.
  intros session.
  assert (Hv : Verified (Data session) = true) by reflexivity.
  assert (Hl : LoggedIn (Data session) = true) by reflexivity.
  assert (Hd : DataEx session = Some (DataExContext (mkContext None))) by reflexivity.
  assert (Ha : Z.shiftr 64 3 = AccountId (Data session)) by reflexivity.
  do 4 (split; [assumption|]).
  exact (proj1 (Initialized_character_cache 1 (fun _ _ => [mkCharacter 64 "a"]) unit
            (fun _ _ => tt) (fun _ _ => mkWriter 0 []) session _ 64 Hv Hl Hd Ha)).
Defined.

(** X11: for a magic key read as an int32, [VerifyLinks] calls
    [rpc.UserVerify] and replies exactly when the key equals the
    configured [MagicKey] modulo 2^32 (Go's [int32] conversion); the
    request carries the session's IP and account id, and the reply's
    third byte is 1 exactly when the RPC reports the user verified.
    Otherwise it only logs. *)
Theorem VerifyLinks_spec MagicKey UserVerify VERIFYLINKS (session : Session)
    (timestamp count channel server magickey : Z) :
  (- 2 ^ 31 <= magickey < 2 ^ 31)%Z ->
  let eff := VerifyLinks MagicKey UserVerify VERIFYLINKS session timestamp count channel server magickey in
  let req := mkVerifyReq timestamp count server channel (socket_ip session) (AccountId (Data session)) in
  (Z.modulo magickey (2 ^ 32) = Z.modulo MagicKey (2 ^ 32) ->
     eff = [RpcE "UserVerify";
            SendE session (mkWriter VERIFYLINKS [channel; server; if UserVerify req then 1%Z else 0%Z])]) /\
  (Z.modulo magickey (2 ^ 32) <> Z.modulo MagicKey (2 ^ 32) ->
     eff = [LogE "Invalid MagicKey"]).
Proof.
  intros Hr eff req. unfold eff, VerifyLinks.
  split.
  - intros H. apply (int32_eq_iff _ MagicKey Hr) in H. rewrite H, Z.eqb_refl. reflexivity.
  - intros H. destruct (Z.eqb_spec magickey (int32 MagicKey)) as [E|E]; [|reflexivity].
    exfalso. apply H. apply (int32_eq_iff _ MagicKey Hr). exact E.
Qed.

Lemma VerifyLinks_spec_witness :
  (- 2 ^ 31 <= -1 < 2 ^ 31)%Z /\
  VerifyLinks 4294967295 (fun _ => true) 5 s0 0 0 1 2 (-1) =
    [RpcE "UserVerify"; SendE s0 (mkWriter 5 [1%Z; 2%Z; 1%Z])].
Proof.
  assert (Hr : (- 2 ^ 31 <= -1 < 2 ^ 31)%Z) by lia.
  split; [exact Hr|].
  exact (proj1 (VerifyLinks_spec 4294967295 (fun _ => true) 5 s0 0 0 1 2 (-1) Hr) eq_refl).
Defined.

(** X12: after a successful accept, [GetSession] on the assigned identity
    returns the new session; once its disconnect event is handled,
    [GetSession] on that identity returns nil. *)
Theorem GetSession_accept_disconnect fuel n s n' s' l l' :
  wf n -> accept fuel n s = Accepted n' s' ->
  go_range (clients n') l -> go_range (clients (onClientDisconnect n' (Some s'))) l' ->
  GetSession l (UserIdx s') = Some s' /\ GetSession l' (UserIdx s') = None.
Proof.
  intros Hw H Hl Hl'.
  assert (Hw' : wf n') by exact (wf_step _ _ Hw (step_accept _ _ _ _ _ H)).
  assert (Hw'' : wf (onClientDisconnect n' (Some s'))) by exact (wf_step _ _ Hw' (step_disconnect _ _)).
  destruct (accept_accepted _ _ _ _ _ H) as (_ & Hc & _).
  rewrite (GetSession_lookup _ _ _ Hw' Hl), (GetSession_lookup _ _ _ Hw'' Hl'). simpl.
  rewrite lookup_delete_eq, Hc, lookup_insert_eq. split; reflexivity.
Qed.

Lemma GetSession_accept_disconnect_witness :
  wf init /\
  accept 1 init s0 = Accepted (mkNetwork {[0 := set_UserIdx s0 0]} 1) (set_UserIdx s0 0) /\
  go_range {[0 := set_UserIdx s0 0]} [(0, set_UserIdx s0 0)] /\
  go_range (clients (onClientDisconnect (mkNetwork {[0 := set_UserIdx s0 0]} 1)
                       (Some (set_UserIdx s0 0)))) [] /\
  GetSession [(0, set_UserIdx s0 0)] 0 = Some (set_UserIdx s0 0).
Proof.
  assert (Hw : wf init) by exact wf_init.
  assert (H : accept 1 init s0 = Accepted (mkNetwork {[0 := set_UserIdx s0 0]} 1) (set_UserIdx s0 0))
    by reflexivity.
  assert (G : go_range {[0 := set_UserIdx s0 0]} [(0, set_UserIdx s0 0)]).
  { unfold go_range. rewrite map_to_list_singleton. reflexivity. }
  assert (G' : go_range (clients (onClientDisconnect (mkNetwork {[0 := set_UserIdx s0 0]} 1)
                       (Some (set_UserIdx s0 0)))) []).
  { vm_compute. constructor. }
  do 4 (split; [assumption|]).
  exact (proj1 (GetSession_accept_disconnect 1 init s0 _ _ _ _ Hw H G G')).
Defined.

End HandlerExtras.
